(** * Storage tier of the render farm: a shallow embedding of
      [examples/deadline/All-In-AWS-Infrastructure-Basic/python/package/lib/storage_tier.py]

    The Python module declares three CDK stacks ([StorageTier] and its two
    subclasses).  Their constructors only build an in-memory description of
    the infrastructure: they call constructors of [aws_cdk] and [aws_rfdk]
    with [self] as scope, and assign two attributes of [self].

    The embedding keeps that shape.  The constructs of the two libraries are
    records of the arguments they are declared with; [self] is a state (the
    constructs declared so far, the attribute dictionary, the history of the
    attribute assignments) threaded through a state-and-exception monad.

    The code of the two libraries is not part of the module.  What it does
    when the module calls it is a parameter, [Library]: whether a call is
    refused (the bindings then raise), and what the library adds under the
    stack on its own.  Every property below holds for every library.  The
    one Python expression of the module that can raise on its own is
    [props.vpc.availability_zones[0]], which raises [IndexError]. *)

From Stdlib Require Import ZArith.
From stdpp Require Import base option list strings pretty gmap.

Local Open Scope string_scope.
Local Set Warnings "-register-all".

(** ** Python values *)

(** The path of a construct in the construct tree: the ids from the root. *)
Definition ConstructPath := list string.

(** The exceptions a class of the module can raise: [IndexError] from the
    module's own indexing, and the error the bindings raise when a library
    call refuses its arguments. *)
Inductive PyException :=
  | IndexError
  | JSIIError.

Inductive Result (A : Type) :=
  | Ok (a : A)
  | Raise (e : PyException).
Arguments Ok {A} a.
Arguments Raise {A} e.

(** [l[i]] for a non-negative literal index: out of range raises. *)
Definition py_getitem {A} (l : list A) (i : nat) : Result A :=
  match l !! i with
  | Some x => Ok x
  | None => Raise IndexError
  end.

(** ** [json.dumps] with its default arguments

    Python dictionaries keep insertion order, and the encoder writes the
    items in that order: a dictionary literal is an association list.
    A Python string is a sequence of code points; here it is written as its
    UTF-8 bytes, the way a string literal of this file is stored, and
    [decode] reads the code points back.  Floats are left out. *)
Module json.

Inductive value :=
  | Null
  | Bool (b : bool)
  | Int (n : Z)
  | Str (s : string)
  | List (l : list value)
  | Dict (d : list (string * value)).

Definition dq : string := String (Ascii.ascii_of_nat 34) EmptyString.
Definition backslash : string := String (Ascii.ascii_of_nat 92) EmptyString.

Definition hex_digit (n : N) : string :=
  match n with
  | 0 => "0" | 1 => "1" | 2 => "2" | 3 => "3" | 4 => "4" | 5 => "5"
  | 6 => "6" | 7 => "7" | 8 => "8" | 9 => "9" | 10 => "a" | 11 => "b"
  | 12 => "c" | 13 => "d" | 14 => "e" | _ => "f"
  end%N.

(** ['\\u{0:04x}'.format(n)], for [n] below 65536. *)
Definition escape_unicode (n : N) : string :=
  (backslash +:+ "u"
   +:+ hex_digit (n / 4096 mod 16) +:+ hex_digit (n / 256 mod 16)
   +:+ hex_digit (n / 16 mod 16) +:+ hex_digit (n mod 16))%N.

(** One code point, as [py_encode_basestring_ascii] writes it: the short
    escapes, the characters from the space to the tilde as they are, every
    other code point as a [\u] escape, by a surrogate pair from 65536 on. *)
Definition escape_code_point (n : N) : string :=
  (if n =? 34 then backslash +:+ dq
   else if n =? 92 then backslash +:+ backslash
   else if n =? 10 then backslash +:+ "n"
   else if n =? 13 then backslash +:+ "r"
   else if n =? 9 then backslash +:+ "t"
   else if n =? 12 then backslash +:+ "f"
   else if n =? 8 then backslash +:+ "b"
   else if (32 <=? n) && (n <=? 126) then
     String (Ascii.ascii_of_N n) EmptyString
   else if n <? 65536 then escape_unicode n
   else escape_unicode (55296 + (n - 65536) / 1024 mod 1024)
        +:+ escape_unicode (56320 + (n - 65536) mod 1024))%N.

(** The payload of a UTF-8 continuation byte. *)
Definition continuation (c : Ascii.ascii) : option N :=
  let n := Ascii.N_of_ascii c in
  (if (128 <=? n) && (n <=? 191) then Some (n - 128) else None)%N.

(** The code points of a string given by its UTF-8 bytes.  A byte that
    starts no well-formed sequence stands for no character of a Python
    string; it is read as the lone surrogate [0xDC00 + byte], as Python's
    [surrogateescape] reads it. *)
Fixpoint decode (s : string) : list N :=
  match s with
  | EmptyString => []
  | String c0 s1 =>
      let n0 := Ascii.N_of_ascii c0 in
      let lone := (56320 + n0)%N :: decode s1 in
      if (n0 <? 128)%N then n0 :: decode s1
      else
        match s1 with
        | String c1 s2 =>
            match continuation c1 with
            | Some x1 =>
                if ((194 <=? n0) && (n0 <=? 223))%N then
                  ((n0 - 192) * 64 + x1)%N :: decode s2
                else
                  match s2 with
                  | String c2 s3 =>
                      match continuation c2 with
                      | Some x2 =>
                          if ((224 <=? n0) && (n0 <=? 239))%N then
                            let cp := ((n0 - 224) * 4096 + x1 * 64 + x2)%N in
                            if ((2048 <=? cp)
                                && negb ((55296 <=? cp) && (cp <=? 57343)))%N
                            then cp :: decode s3
                            else lone
                          else
                            match s3 with
                            | String c3 s4 =>
                                match continuation c3 with
                                | Some x3 =>
                                    let cp := ((n0 - 240) * 262144 + x1 * 4096
                                               + x2 * 64 + x3)%N in
                                    if ((240 <=? n0) && (n0 <=? 244)
                                        && (65536 <=? cp) && (cp <=? 1114111))%N
                                    then cp :: decode s4
                                    else lone
                                | None => lone
                                end
                            | EmptyString => lone
                            end
                      | None => lone
                      end
                  | EmptyString => lone
                  end
            | None => lone
            end
        | EmptyString => lone
        end
  end.

Fixpoint escape_code_points (l : list N) : string :=
  match l with
  | [] => EmptyString
  | n :: l' => escape_code_point n +:+ escape_code_points l'
  end.

Definition escape (s : string) : string := escape_code_points (decode s).

Definition encode_str (s : string) : string := dq +:+ escape s +:+ dq.

Definition encode_int (n : Z) : string := pretty n.

(** The items of a list or of a dictionary, separated by [", "]. *)
Fixpoint join (sep : string) (l : list string) : string :=
  match l with
  | [] => ""
  | [x] => x
  | x :: l' => x +:+ sep +:+ join sep l'
  end.

Fixpoint dumps (v : value) : string :=
  match v with
  | Null => "null"
  | Bool true => "true"
  | Bool false => "false"
  | Int n => encode_int n
  | Str s => encode_str s
  | List l => "[" +:+ join ", " (map dumps l) +:+ "]"
  | Dict d =>
      "{" +:+
      join ", " (map (fun kv => encode_str (fst kv) +:+ ": " +:+ dumps (snd kv)) d)
      +:+ "}"
  end.

End json.

(** ** The constructs of [aws_cdk] the module declares

    A construct is the record of the keyword arguments it is declared with,
    together with the scope it is declared in and its id.  An argument the
    library declares optional is an [option]: [None] is "not passed". *)

Inductive RemovalPolicy :=
  | DESTROY
  | RETAIN
  | SNAPSHOT.

Inductive SubnetType :=
  | ISOLATED
  | PRIVATE
  | PUBLIC.

Module Duration.
Inductive TimeUnit := Milliseconds | Seconds | Minutes | Hours | Days.
Record t := { amount : Z; unit : TimeUnit }.
Definition days (amount : Z) : t := {| amount := amount; unit := Days |}.
(** [Duration.to_days()], for a duration given in days. *)
Definition to_days (d : t) : option Z :=
  match unit d with
  | Days => Some (amount d)
  | _ => None
  end.
End Duration.

Module IVpc.
Record t := { vpc_id : string; availability_zones : list string }.
End IVpc.

Module InstanceType.
Record t := { instance_type_identifier : string }.
End InstanceType.

Module SubnetSelection.
Record t := {
  subnet_type : option SubnetType;
  availability_zones : option (list string)
}.
End SubnetSelection.

Module IPrivateHostedZone.
Record t := { hosted_zone_id : string; zone_name : string }.
End IPrivateHostedZone.

Module Login.
Record t := { username : string; password : option string }.
End Login.

Module BackupProps.
Record t := { retention : Duration.t }.
End BackupProps.

Module InstanceProps.
Record t := {
  vpc : IVpc.t;
  vpc_subnets : option SubnetSelection.t;
  instance_type : InstanceType.t
}.
End InstanceProps.

Module FileSystem.
Record t := {
  scope : ConstructPath;
  id : string;
  vpc : IVpc.t;
  removal_policy : option RemovalPolicy
}.
End FileSystem.

Module DatabaseCluster.
Record t := {
  scope : ConstructPath;
  id : string;
  instance_props : InstanceProps.t;
  instances : option Z;
  master_user : Login.t;
  engine_version : option string;
  backup : option BackupProps.t;
  removal_policy : option RemovalPolicy
}.
End DatabaseCluster.

(** ** The constructs of [aws_rfdk] the module declares *)

Inductive MongoDbSsplLicenseAcceptance :=
  | USER_REJECTS_SSPL
  | USER_ACCEPTS_SSPL.

Inductive MongoDbVersion :=
  | COMMUNITY_3_6.

Module DistinguishedName.
Record t := { cn : string; o : option string; ou : option string }.
End DistinguishedName.

Module X509CertificatePem.
(** The signing certificate is itself an [X509CertificatePem]; a
    certificate declared without one is self-signed. *)
Inductive t := Build {
  scope : ConstructPath;
  id : string;
  subject : DistinguishedName.t;
  signing_certificate : option t
}.
End X509CertificatePem.

Module X509CertificatePkcs12.
Record t := {
  scope : ConstructPath;
  id : string;
  source_certificate : X509CertificatePem.t
}.
End X509CertificatePkcs12.

(** The secrets the module reads off the constructs it declares:
    [X509CertificatePem.cert], the secret that holds the certificate, and
    [DatabaseCluster.secret], the credentials the cluster generates. *)
Inductive ISecret :=
  | CertificateSecret (owner : X509CertificatePem.t)
  | DatabaseSecret (cluster_scope : ConstructPath) (cluster_id : string)
                   (username : string).

(** Modelled from the spec: [X509CertificatePem.cert] belongs to [aws_rfdk],
    whose code is not part of the module; it stands for "the client
    certificate's identity", the secret that holds the certificate. *)
Definition X509CertificatePem_cert (c : X509CertificatePem.t) : ISecret :=
  CertificateSecret c.

(** Modelled from the spec: [DatabaseCluster.secret] belongs to [aws_cdk],
    whose code is not part of the module; it is the cluster's "generated
    credential secret".  The attribute is optional: the cluster generates
    the secret for its master user when the login is given without a
    password. *)
Definition DatabaseCluster_secret (c : DatabaseCluster.t) : option ISecret :=
  match Login.password (DatabaseCluster.master_user c) with
  | None =>
      Some (DatabaseSecret (DatabaseCluster.scope c) (DatabaseCluster.id c)
              (Login.username (DatabaseCluster.master_user c)))
  | Some _ => None
  end.

Module MountableEfs.
Record t := { scope : ConstructPath; filesystem : FileSystem.t }.
End MountableEfs.

Module MongoDbApplicationProps.
Record t := {
  user_sspl_acceptance : MongoDbSsplLicenseAcceptance;
  version : MongoDbVersion;
  hostname : string;
  dns_zone : IPrivateHostedZone.t;
  server_certificate : X509CertificatePem.t
}.
End MongoDbApplicationProps.

Module MongoDbInstance.
Record t := {
  scope : ConstructPath;
  id : string;
  vpc : IVpc.t;
  vpc_subnets : option SubnetSelection.t;
  key_name : option string;
  instance_type : option InstanceType.t;
  mongo_db : MongoDbApplicationProps.t
}.
(** Modelled from the spec: [MongoDbInstance] belongs to [aws_rfdk], whose
    code is not part of the module; the instance is "scoped to that zone and
    DNS name", that is registered in its DNS zone under its hostname
    followed by the name of the zone. *)
Definition full_hostname (m : t) : string :=
  MongoDbApplicationProps.hostname (mongo_db m) +:+ "." +:+
  IPrivateHostedZone.zone_name (MongoDbApplicationProps.dns_zone (mongo_db m)).
End MongoDbInstance.

Module MongoDbX509User.
Record t := { certificate : ISecret; roles : string }.
End MongoDbX509User.

Module MongoDbUsers.
Record t := { x509_auth_users : option (list MongoDbX509User.t) }.
End MongoDbUsers.

Module MongoDbPostInstallSetup.
Record t := {
  scope : ConstructPath;
  id : string;
  vpc : IVpc.t;
  vpc_subnets : option SubnetSelection.t;
  mongo_db : MongoDbInstance.t;
  users : MongoDbUsers.t
}.
End MongoDbPostInstallSetup.

(** [aws_rfdk.deadline.DatabaseConnection], with its two factory methods. *)
Module DatabaseConnection.
Inductive t :=
  | for_doc_db (database : DatabaseCluster.t) (login : option ISecret)
  | for_mongo_db_instance (database : MongoDbInstance.t)
                          (client_certificate : X509CertificatePkcs12.t).
End DatabaseConnection.

(** A construct declared with the stack as its scope. *)
Inductive Construct :=
  | CFileSystem (c : FileSystem.t)
  | CDatabaseCluster (c : DatabaseCluster.t)
  | CX509CertificatePem (c : X509CertificatePem.t)
  | CX509CertificatePkcs12 (c : X509CertificatePkcs12.t)
  | CMongoDbInstance (c : MongoDbInstance.t)
  | CMongoDbPostInstallSetup (c : MongoDbPostInstallSetup.t).

(** The removal policy a construct is declared with, when it is declared
    with one.  Only [FileSystem] and [DatabaseCluster] take the argument. *)
Definition removal_policy_of (c : Construct) : option RemovalPolicy :=
  match c with
  | CFileSystem f => FileSystem.removal_policy f
  | CDatabaseCluster d => DatabaseCluster.removal_policy d
  | CX509CertificatePem _ | CX509CertificatePkcs12 _
  | CMongoDbInstance _ | CMongoDbPostInstallSetup _ => None
  end.

(** ** The libraries

    A call of the module into [aws_cdk] or [aws_rfdk]: the constructor of a
    construct, the constructor of [MountableEfs], or a factory method of
    [DatabaseConnection]. *)
Inductive LibraryCall :=
  | CallConstruct (c : Construct)
  | CallMountableEfs (m : MountableEfs.t)
  | CallDatabaseConnection (d : DatabaseConnection.t).

(** What the libraries do, in the application the stack is part of (the
    rest of the construct tree, the context, the keyword arguments handed on
    to [Stack.__init__]).  The libraries see the path of the stack and the
    constructs the module has declared in it so far. *)
Record Library := {
  (* [Stack.__init__(scope, stack_id, **kwargs)] is refused *)
  refuses_stack : ConstructPath → string → bool;
  (* the call is refused: the bindings raise *)
  refuses : ConstructPath → list Construct → LibraryCall → bool;
  (* the ids of the constructs the library adds on its own, directly under
     the stack, while it constructs the construct *)
  adds : ConstructPath → list Construct → Construct → list string
}.

(** ** The stack under construction: [self] *)

Inductive PyClass :=
  | ClsStorageTier
  | ClsStorageTierDocDB
  | ClsStorageTierMongoDB.

(** The values the module stores in attributes of [self]:
    [self.file_system] and [self.database : Optional[DatabaseConnection]]. *)
Inductive AttrValue :=
  | VMountableEfs (m : MountableEfs.t)
  | VDatabase (d : option DatabaseConnection.t).

(** One execution of an assignment [self.name = value], with the class whose
    [__init__] executes it. *)
Record Assignment := {
  assigned_by : PyClass;
  assigned_name : string;
  assigned_value : AttrValue
}.

(** The id of a construct in the tree: the path separator, the slash
    (character 47), is replaced. *)
Fixpoint sanitize_id (id : string) : string :=
  match id with
  | EmptyString => EmptyString
  | String c id' =>
      if Ascii.eqb c (Ascii.ascii_of_nat 47) then "--" +:+ sanitize_id id'
      else String c (sanitize_id id')
  end.

Module Stack.
Record t := {
  scope : ConstructPath;
  stack_id : string;
  (* the constructs the module declares with [self] as scope, in
     declaration order *)
  children : list Construct;
  (* the ids of the constructs the libraries add on their own directly
     under the stack, in the order they are added *)
  library_children : list string;
  (* the attribute dictionary of [self] *)
  attrs : gmap string AttrValue;
  (* every attribute assignment executed so far, oldest first *)
  assignments : list Assignment
}.

Definition path (self : t) : ConstructPath :=
  (scope self ++ [sanitize_id (stack_id self)])%list.

(** [Stack.__init__(scope, stack_id, **kwargs)]: an empty id is refused, and
    so is what the library refuses; otherwise nothing is declared yet and
    there is no attribute. *)
Definition init (lib : Library) (scope : ConstructPath) (stack_id : string)
    : Result t :=
  if String.eqb stack_id "" then Raise JSIIError
  else if refuses_stack lib scope stack_id then Raise JSIIError
  else Ok {| scope := scope; stack_id := stack_id;
             children := []; library_children := [];
             attrs := ∅; assignments := [] |}.
End Stack.

(** State ([self]) and exceptions. *)
Definition M (A : Type) : Type := Stack.t → Result (A * Stack.t).

#[global] Instance M_ret : MRet M := λ A a self, Ok (a, self).

#[global] Instance M_bind : MBind M := λ A B f m self,
  match m self with
  | Ok (a, self') => f a self'
  | Raise e => Raise e
  end.

Definition lift {A} (r : Result A) : M A := λ self,
  match r with
  | Ok a => Ok (a, self)
  | Raise e => Raise e
  end.

Definition self_path : M ConstructPath := λ self, Ok (Stack.path self, self).

(** A library call that declares nothing: it is refused or it returns. *)
Definition library_call (lib : Library) (call : LibraryCall) : M unit :=
  λ self,
  if refuses lib (Stack.path self) (Stack.children self) call
  then Raise JSIIError
  else Ok (tt, self).

(** The constructor of a construct, called with [self] as scope: it is
    refused, or the construct becomes a child of the stack, together with
    what the library adds on its own. *)
Definition declare (lib : Library) (c : Construct) : M unit := λ self,
  if refuses lib (Stack.path self) (Stack.children self) (CallConstruct c)
  then Raise JSIIError
  else
    Ok (tt, {| Stack.scope := Stack.scope self;
               Stack.stack_id := Stack.stack_id self;
               Stack.children := (Stack.children self ++ [c])%list;
               Stack.library_children :=
                 (Stack.library_children self ++
                  adds lib (Stack.path self) (Stack.children self) c)%list;
               Stack.attrs := Stack.attrs self;
               Stack.assignments := Stack.assignments self |}).

(** [self.name = v], executed by the [__init__] of [cls]. *)
Definition setattr (cls : PyClass) (name : string) (v : AttrValue) : M unit :=
  λ self,
  Ok (tt, {| Stack.scope := Stack.scope self;
             Stack.stack_id := Stack.stack_id self;
             Stack.children := Stack.children self;
             Stack.library_children := Stack.library_children self;
             Stack.attrs := <[name := v]> (Stack.attrs self);
             Stack.assignments :=
               (Stack.assignments self ++
                [{| assigned_by := cls; assigned_name := name;
                    assigned_value := v |}])%list |}).

(** The library constructors, called with [self] as scope. *)

Definition new_FileSystem (lib : Library) (id : string) (vpc : IVpc.t)
    (removal_policy : option RemovalPolicy) : M FileSystem.t :=
  scope ← self_path;
  let c := {| FileSystem.scope := scope; FileSystem.id := id;
              FileSystem.vpc := vpc;
              FileSystem.removal_policy := removal_policy |} in
  declare lib (CFileSystem c);;
  mret c.

(** [MountableEfs] takes a scope and no id: it is no construct. *)
Definition new_MountableEfs (lib : Library) (filesystem : FileSystem.t)
    : M MountableEfs.t :=
  scope ← self_path;
  let m := {| MountableEfs.scope := scope;
              MountableEfs.filesystem := filesystem |} in
  library_call lib (CallMountableEfs m);;
  mret m.

(** [DatabaseConnection.for_doc_db] and
    [DatabaseConnection.for_mongo_db_instance]. *)
Definition new_DatabaseConnection (lib : Library) (d : DatabaseConnection.t)
    : M DatabaseConnection.t :=
  library_call lib (CallDatabaseConnection d);;
  mret d.

Definition new_DatabaseCluster (lib : Library) (id : string)
    (instance_props : InstanceProps.t)
    (instances : option Z) (master_user : Login.t)
    (engine_version : option string) (backup : option BackupProps.t)
    (removal_policy : option RemovalPolicy) : M DatabaseCluster.t :=
  scope ← self_path;
  let c := {| DatabaseCluster.scope := scope; DatabaseCluster.id := id;
              DatabaseCluster.instance_props := instance_props;
              DatabaseCluster.instances := instances;
              DatabaseCluster.master_user := master_user;
              DatabaseCluster.engine_version := engine_version;
              DatabaseCluster.backup := backup;
              DatabaseCluster.removal_policy := removal_policy |} in
  declare lib (CDatabaseCluster c);;
  mret c.

Definition new_X509CertificatePem (lib : Library) (id : string)
    (subject : DistinguishedName.t)
    (signing_certificate : option X509CertificatePem.t)
    : M X509CertificatePem.t :=
  scope ← self_path;
  let c := X509CertificatePem.Build scope id subject signing_certificate in
  declare lib (CX509CertificatePem c);;
  mret c.

Definition new_X509CertificatePkcs12 (lib : Library) (id : string)
    (source_certificate : X509CertificatePem.t) : M X509CertificatePkcs12.t :=
  scope ← self_path;
  let c := {| X509CertificatePkcs12.scope := scope;
              X509CertificatePkcs12.id := id;
              X509CertificatePkcs12.source_certificate := source_certificate |} in
  declare lib (CX509CertificatePkcs12 c);;
  mret c.

Definition new_MongoDbInstance (lib : Library) (id : string) (vpc : IVpc.t)
    (vpc_subnets : option SubnetSelection.t) (key_name : option string)
    (instance_type : option InstanceType.t)
    (mongo_db : MongoDbApplicationProps.t) : M MongoDbInstance.t :=
  scope ← self_path;
  let c := {| MongoDbInstance.scope := scope; MongoDbInstance.id := id;
              MongoDbInstance.vpc := vpc;
              MongoDbInstance.vpc_subnets := vpc_subnets;
              MongoDbInstance.key_name := key_name;
              MongoDbInstance.instance_type := instance_type;
              MongoDbInstance.mongo_db := mongo_db |} in
  declare lib (CMongoDbInstance c);;
  mret c.

Definition new_MongoDbPostInstallSetup (lib : Library) (id : string)
    (vpc : IVpc.t)
    (vpc_subnets : option SubnetSelection.t) (mongo_db : MongoDbInstance.t)
    (users : MongoDbUsers.t) : M MongoDbPostInstallSetup.t :=
  scope ← self_path;
  let c := {| MongoDbPostInstallSetup.scope := scope;
              MongoDbPostInstallSetup.id := id;
              MongoDbPostInstallSetup.vpc := vpc;
              MongoDbPostInstallSetup.vpc_subnets := vpc_subnets;
              MongoDbPostInstallSetup.mongo_db := mongo_db;
              MongoDbPostInstallSetup.users := users |} in
  declare lib (CMongoDbPostInstallSetup c);;
  mret c.

(** ** The module's classes *)

(** The fields the dataclasses inherit from [StackProps] are handed to
    [Stack.__init__] and never read by the module: they are left out. *)
Module StorageTierProps.
Record t := { vpc : IVpc.t }.
End StorageTierProps.

Module StorageTierDocDBProps.
Record t := {
  base : StorageTierProps.t;
  database_instance_type : InstanceType.t
}.
Definition vpc (props : t) : IVpc.t := StorageTierProps.vpc (base props).
End StorageTierDocDBProps.

Module StorageTierMongoDBProps.
Record t := {
  base : StorageTierProps.t;
  database_instance_type : InstanceType.t;
  root_ca : X509CertificatePem.t;
  dns_zone : IPrivateHostedZone.t;
  accept_sspl_license : MongoDbSsplLicenseAcceptance;
  key_pair_name : option string
}.
Definition vpc (props : t) : IVpc.t := StorageTierProps.vpc (base props).
End StorageTierMongoDBProps.

(** The body of [StorageTier.__init__] after [super().__init__]. *)
Definition StorageTier__init__ (lib : Library) (props : StorageTierProps.t)
    : M unit :=
  filesystem ← new_FileSystem lib "EfsFileSystem" (StorageTierProps.vpc props)
                 (Some DESTROY);
  file_system ← new_MountableEfs lib filesystem;
  setattr ClsStorageTier "file_system" (VMountableEfs file_system);;
  setattr ClsStorageTier "database" (VDatabase None).

Definition StorageTierDocDB__init__ (lib : Library)
    (props : StorageTierDocDBProps.t) : M unit :=
  StorageTier__init__ lib (StorageTierDocDBProps.base props);;
  let instance_props :=
    {| InstanceProps.vpc := StorageTierDocDBProps.vpc props;
       InstanceProps.vpc_subnets :=
         Some {| SubnetSelection.subnet_type := Some PRIVATE;
                 SubnetSelection.availability_zones := None |};
       InstanceProps.instance_type :=
         StorageTierDocDBProps.database_instance_type props |} in
  doc_db ← new_DatabaseCluster lib "DocDBCluster" instance_props
             (Some 1%Z)
             {| Login.username := "adminuser"; Login.password := None |}
             (Some "3.6.0")
             (Some {| BackupProps.retention := Duration.days 15 |})
             (Some DESTROY);
  database ← new_DatabaseConnection lib
               (DatabaseConnection.for_doc_db doc_db
                  (DatabaseCluster_secret doc_db));
  setattr ClsStorageTierDocDB "database" (VDatabase (Some database)).

(** The argument of [json.dumps] in [StorageTierMongoDB.__init__]. *)
Definition x509_user_roles : json.value :=
  json.List
    [ json.Dict [("role", json.Str "readWriteAnyDatabase");
                 ("db", json.Str "admin")];
      json.Dict [("role", json.Str "clusterMonitor");
                 ("db", json.Str "admin")] ].

Definition StorageTierMongoDB__init__ (lib : Library)
    (props : StorageTierMongoDBProps.t) : M unit :=
  StorageTier__init__ lib (StorageTierMongoDBProps.base props);;
  server_cert ← new_X509CertificatePem lib "MongoCert"
    {| DistinguishedName.cn :=
         "mongo." +:+
         IPrivateHostedZone.zone_name (StorageTierMongoDBProps.dns_zone props);
       DistinguishedName.o := Some "RFDK-Sample";
       DistinguishedName.ou := Some "MongoServer" |}
    (Some (StorageTierMongoDBProps.root_ca props));
  client_cert ← new_X509CertificatePem lib "DeadlineMongoCert"
    {| DistinguishedName.cn := "SampleUser";
       DistinguishedName.o := Some "RFDK-Sample";
       DistinguishedName.ou := Some "MongoClient" |}
    (Some (StorageTierMongoDBProps.root_ca props));
  client_pkcs12 ← new_X509CertificatePkcs12 lib "DeadlineMongoPkcs12"
                    client_cert;
  availability_zone ←
    lift (py_getitem
            (IVpc.availability_zones (StorageTierMongoDBProps.vpc props)) 0);
  let mongo_vpc_subnet :=
    {| SubnetSelection.subnet_type := Some PRIVATE;
       SubnetSelection.availability_zones := Some [availability_zone] |} in
  mongo_db ← new_MongoDbInstance lib "MongoDb"
    (StorageTierMongoDBProps.vpc props)
    (Some mongo_vpc_subnet)
    (StorageTierMongoDBProps.key_pair_name props)
    (Some (StorageTierMongoDBProps.database_instance_type props))
    {| MongoDbApplicationProps.user_sspl_acceptance :=
         StorageTierMongoDBProps.accept_sspl_license props;
       MongoDbApplicationProps.version := COMMUNITY_3_6;
       MongoDbApplicationProps.hostname := "mongo";
       MongoDbApplicationProps.dns_zone := StorageTierMongoDBProps.dns_zone props;
       MongoDbApplicationProps.server_certificate := server_cert |};
  _mongo_db_post_install_setup ← new_MongoDbPostInstallSetup lib
                                   "MongoDbPostInstall"
    (StorageTierMongoDBProps.vpc props)
    (Some mongo_vpc_subnet)
    mongo_db
    {| MongoDbUsers.x509_auth_users :=
         Some [ {| MongoDbX509User.certificate :=
                     X509CertificatePem_cert client_cert;
                   MongoDbX509User.roles := json.dumps x509_user_roles |} ] |};
  database ← new_DatabaseConnection lib
               (DatabaseConnection.for_mongo_db_instance mongo_db
                  client_pkcs12);
  setattr ClsStorageTierMongoDB "database" (VDatabase (Some database)).

(** Calling a class: [Stack.__init__], then the body of [__init__]; the
    object is returned when no exception was raised. *)
Definition instantiate (lib : Library) (scope : ConstructPath)
    (stack_id : string) (init : M unit) : Result Stack.t :=
  match Stack.init lib scope stack_id with
  | Ok self0 =>
      match init self0 with
      | Ok (_, self) => Ok self
      | Raise e => Raise e
      end
  | Raise e => Raise e
  end.

Definition StorageTier (lib : Library) (scope : ConstructPath)
    (stack_id : string) (props : StorageTierProps.t) : Result Stack.t :=
  instantiate lib scope stack_id (StorageTier__init__ lib props).

Definition StorageTierDocDB (lib : Library) (scope : ConstructPath)
    (stack_id : string) (props : StorageTierDocDBProps.t) : Result Stack.t :=
  instantiate lib scope stack_id (StorageTierDocDB__init__ lib props).

Definition StorageTierMongoDB (lib : Library) (scope : ConstructPath)
    (stack_id : string) (props : StorageTierMongoDBProps.t) : Result Stack.t :=
  instantiate lib scope stack_id (StorageTierMongoDB__init__ lib props).

(** A deployment instantiates one of the three classes. *)
Inductive Deployment :=
  | DeployStorageTier (props : StorageTierProps.t)
  | DeployStorageTierDocDB (props : StorageTierDocDBProps.t)
  | DeployStorageTierMongoDB (props : StorageTierMongoDBProps.t).

Definition deploy (lib : Library) (scope : ConstructPath) (stack_id : string)
    (d : Deployment) : Result Stack.t :=
  match d with
  | DeployStorageTier props => StorageTier lib scope stack_id props
  | DeployStorageTierDocDB props => StorageTierDocDB lib scope stack_id props
  | DeployStorageTierMongoDB props =>
      StorageTierMongoDB lib scope stack_id props
  end.

Definition variant_class (d : Deployment) : PyClass :=
  match d with
  | DeployStorageTier _ => ClsStorageTier
  | DeployStorageTierDocDB _ => ClsStorageTierDocDB
  | DeployStorageTierMongoDB _ => ClsStorageTierMongoDB
  end.

(** ** Reading the constructed stack *)

(** [self.database], when the attribute exists. *)
Definition getattr_database (self : Stack.t)
    : option (option DatabaseConnection.t) :=
  match Stack.attrs self !! "database" with
  | Some (VDatabase d) => Some d
  | _ => None
  end.

(** [self.file_system], when the attribute exists. *)
Definition getattr_file_system (self : Stack.t) : option MountableEfs.t :=
  match Stack.attrs self !! "file_system" with
  | Some (VMountableEfs m) => Some m
  | _ => None
  end.

(** The assignments to the attribute [name], oldest first: who assigned
    what.  Every assignment to the name counts, whatever the value. *)
Definition assignments_to (name : string) (self : Stack.t)
    : list (PyClass * AttrValue) :=
  omap (λ a,
          if String.eqb (assigned_name a) name
          then Some (assigned_by a, assigned_value a)
          else None)
       (Stack.assignments self).

(** The assignments to [self.database]. *)
Definition database_assignments (self : Stack.t)
    : list (PyClass * AttrValue) :=
  assignments_to "database" self.

(** ** Sample deployments *)

Definition sample_vpc : IVpc.t :=
  {| IVpc.vpc_id := "vpc-0a1b2c";
     IVpc.availability_zones := ["us-west-2a"; "us-west-2b"] |}.

(** A VPC that reports no availability zone. *)
Definition zoneless_vpc : IVpc.t :=
  {| IVpc.vpc_id := "vpc-0d4e5f"; IVpc.availability_zones := [] |}.

Definition sample_root_ca : X509CertificatePem.t :=
  X509CertificatePem.Build ["App"; "SecurityTier"] "RootCA"
    {| DistinguishedName.cn := "SampleRootCA";
       DistinguishedName.o := None; DistinguishedName.ou := None |}
    None.

Definition sample_zone : IPrivateHostedZone.t :=
  {| IPrivateHostedZone.hosted_zone_id := "Z0123456";
     IPrivateHostedZone.zone_name := "deadline-test.internal" |}.

Definition sample_props : StorageTierProps.t :=
  {| StorageTierProps.vpc := sample_vpc |}.

Definition sample_docdb_props : StorageTierDocDBProps.t :=
  {| StorageTierDocDBProps.base := sample_props;
     StorageTierDocDBProps.database_instance_type :=
       {| InstanceType.instance_type_identifier := "r5.large" |} |}.

Definition mongodb_props_in (vpc : IVpc.t) : StorageTierMongoDBProps.t :=
  {| StorageTierMongoDBProps.base := {| StorageTierProps.vpc := vpc |};
     StorageTierMongoDBProps.database_instance_type :=
       {| InstanceType.instance_type_identifier := "r5.large" |};
     StorageTierMongoDBProps.root_ca := sample_root_ca;
     StorageTierMongoDBProps.dns_zone := sample_zone;
     StorageTierMongoDBProps.accept_sspl_license := USER_ACCEPTS_SSPL;
     StorageTierMongoDBProps.key_pair_name := None |}.

Definition sample_mongodb_props : StorageTierMongoDBProps.t :=
  mongodb_props_in sample_vpc.

Definition zoneless_mongodb_props : StorageTierMongoDBProps.t :=
  mongodb_props_in zoneless_vpc.

(** The constructs of each kind the stack declares, in declaration order. *)
Definition file_systems (self : Stack.t) : list FileSystem.t :=
  omap (λ c, match c with CFileSystem x => Some x | _ => None end)
       (Stack.children self).

Definition database_clusters (self : Stack.t) : list DatabaseCluster.t :=
  omap (λ c, match c with CDatabaseCluster x => Some x | _ => None end)
       (Stack.children self).

Definition pem_certificates (self : Stack.t) : list X509CertificatePem.t :=
  omap (λ c, match c with CX509CertificatePem x => Some x | _ => None end)
       (Stack.children self).

Definition pkcs12_certificates (self : Stack.t) : list X509CertificatePkcs12.t :=
  omap (λ c, match c with CX509CertificatePkcs12 x => Some x | _ => None end)
       (Stack.children self).

Definition mongo_db_instances (self : Stack.t) : list MongoDbInstance.t :=
  omap (λ c, match c with CMongoDbInstance x => Some x | _ => None end)
       (Stack.children self).

Definition post_install_setups (self : Stack.t)
    : list MongoDbPostInstallSetup.t :=
  omap (λ c, match c with CMongoDbPostInstallSetup x => Some x | _ => None end)
       (Stack.children self).

(** The data stores of the storage tier: the construct the file-system
    handle mounts and the construct the database connection wraps. *)
Definition data_store_of_connection (d : DatabaseConnection.t) : Construct :=
  match d with
  | DatabaseConnection.for_doc_db database _ => CDatabaseCluster database
  | DatabaseConnection.for_mongo_db_instance database _ =>
      CMongoDbInstance database
  end.

Definition data_stores (self : Stack.t) : list Construct :=
  (match getattr_file_system self with
   | Some m => [CFileSystem (MountableEfs.filesystem m)]
   | None => []
   end ++
   match getattr_database self with
   | Some (Some d) => [data_store_of_connection d]
   | _ => []
   end)%list.

(** A library for the samples.  Modelled from the spec: the code of
    [aws_rfdk] is not part of the module; "license-acceptance omitted" is
    validation "raised by the external provisioning library", so the
    library refuses a MongoDB instance whose licence is not accepted.  It
    refuses nothing else, and records nothing of what the real libraries
    add under the stack. *)
Definition sample_library : Library :=
  {| refuses_stack := λ _ _, false;
     refuses := λ _ _ call,
       match call with
       | CallConstruct (CMongoDbInstance m) =>
           match MongoDbApplicationProps.user_sspl_acceptance
                   (MongoDbInstance.mongo_db m) with
           | USER_ACCEPTS_SSPL => false
           | USER_REJECTS_SSPL => true
           end
       | _ => false
       end;
     adds := λ _ _ _, [] |}.

(** The calls [StorageTierMongoDB.__init__] makes before it selects the
    availability zone: the file system and its mount, the certificates and
    the bundle. *)
Definition before_zone_selection (call : LibraryCall) : bool :=
  match call with
  | CallConstruct (CFileSystem _) | CallMountableEfs _
  | CallConstruct (CX509CertificatePem _)
  | CallConstruct (CX509CertificatePkcs12 _) => true
  | _ => false
  end.

(** The library accepts the stack and refuses none of these calls. *)
Definition accepts_before_zone_selection (lib : Library)
    (scope : ConstructPath) (stack_id : string) : Prop :=
  stack_id ≠ "" ∧
  refuses_stack lib scope stack_id = false ∧
  ∀ path declared call,
    before_zone_selection call = true →
    refuses lib path declared call = false.

(** The library accepts the stack and refuses no call at all. *)
Definition accepts_all (lib : Library)
    (scope : ConstructPath) (stack_id : string) : Prop :=
  stack_id ≠ "" ∧
  refuses_stack lib scope stack_id = false ∧
  ∀ path declared call, refuses lib path declared call = false.

(** The stacks the sample deployments return. *)
Definition returned (r : Result Stack.t) : Stack.t :=
  match r with
  | Ok self => self
  | Raise _ =>
      {| Stack.scope := []; Stack.stack_id := "";
         Stack.children := []; Stack.library_children := [];
         Stack.attrs := ∅; Stack.assignments := [] |}
  end.

Definition sample_docdb_stack : Stack.t :=
  returned (StorageTierDocDB sample_library ["App"] "StorageTier"
              sample_docdb_props).

Definition sample_mongodb_stack : Stack.t :=
  returned (StorageTierMongoDB sample_library ["App"] "StorageTier"
              sample_mongodb_props).

(** The text [json.dumps] is expected to produce for [x509_user_roles]. *)
Definition quoted (s : string) : string := json.dq +:+ s +:+ json.dq.

Definition x509_user_roles_text : string :=
  "[{" +:+ quoted "role" +:+ ": " +:+ quoted "readWriteAnyDatabase" +:+ ", "
       +:+ quoted "db" +:+ ": " +:+ quoted "admin" +:+ "}, {"
       +:+ quoted "role" +:+ ": " +:+ quoted "clusterMonitor" +:+ ", "
       +:+ quoted "db" +:+ ": " +:+ quoted "admin" +:+ "}]".

(** Every removal policy in a list of constructs is [DESTROY]. *)
Definition only_destroy (l : list Construct) : Prop :=
  ∀ c policy, c ∈ l → removal_policy_of c = Some policy → policy = DESTROY.

(** ** What every construct is declared with *)

(** The id a construct is declared with, its second positional argument. *)
Definition construct_id (c : Construct) : string :=
  match c with
  | CFileSystem x => FileSystem.id x
  | CDatabaseCluster x => DatabaseCluster.id x
  | CX509CertificatePem x => X509CertificatePem.id x
  | CX509CertificatePkcs12 x => X509CertificatePkcs12.id x
  | CMongoDbInstance x => MongoDbInstance.id x
  | CMongoDbPostInstallSetup x => MongoDbPostInstallSetup.id x
  end.

(** The ids of the constructs the module itself declares in the stack, in
    declaration order.  The constructs the libraries add on their own are
    in [Stack.library_children]. *)
Definition declared_ids (self : Stack.t) : list string :=
  construct_id <$> Stack.children self.

(** The VPC a construct is declared in, for the constructs that take one
    (the cluster takes it inside its [instance_props]). *)
Definition construct_vpc (c : Construct) : option IVpc.t :=
  match c with
  | CFileSystem x => Some (FileSystem.vpc x)
  | CDatabaseCluster x =>
      Some (InstanceProps.vpc (DatabaseCluster.instance_props x))
  | CMongoDbInstance x => Some (MongoDbInstance.vpc x)
  | CMongoDbPostInstallSetup x => Some (MongoDbPostInstallSetup.vpc x)
  | CX509CertificatePem _ | CX509CertificatePkcs12 _ => None
  end.

(** The props a deployment hands to [StorageTier.__init__] through
    [super().__init__], and their VPC. *)
Definition deployment_base (d : Deployment) : StorageTierProps.t :=
  match d with
  | DeployStorageTier props => props
  | DeployStorageTierDocDB props => StorageTierDocDBProps.base props
  | DeployStorageTierMongoDB props => StorageTierMongoDBProps.base props
  end.

Definition deployment_vpc (d : Deployment) : IVpc.t :=
  StorageTierProps.vpc (deployment_base d).

(** The assignments to [self.file_system]. *)
Definition file_system_assignments (self : Stack.t)
    : list (PyClass * AttrValue) :=
  assignments_to "file_system" self.

(** The names of the attributes assigned, in the order of the assignments. *)
Definition assigned_names (self : Stack.t) : list string :=
  assigned_name <$> Stack.assignments self.

(** ** Characters of the text [json.dumps] writes *)

(** The characters from the space to the tilde. *)
Definition printable (c : Ascii.ascii) : bool :=
  ((32 <=? Ascii.nat_of_ascii c) && (Ascii.nat_of_ascii c <=? 126))%nat.

(** A character [py_encode_basestring_ascii] copies as it is. *)
Definition plain (c : Ascii.ascii) : bool :=
  printable c
  && negb (Ascii.nat_of_ascii c =? 34)%nat
  && negb (Ascii.nat_of_ascii c =? 92)%nat.

Fixpoint all_chars (P : Ascii.ascii → bool) (s : string) : bool :=
  match s with
  | EmptyString => true
  | String c s' => P c && all_chars P s'
  end.

(** * Properties *)

(** ** Running the constructors *)

Lemma py_getitem_0 {A} (l : list A) :
  py_getitem l 0 = match l with [] => Raise IndexError | x :: _ => Ok x end.
Proof. by destruct l. Qed.

Lemma py_getitem_Ok {A} (l : list A) (i : nat) (x : A) :
  py_getitem l i = Ok x ↔ l !! i = Some x.
Proof.
  unfold py_getitem. destruct (l !! i); split; intros H; by inversion H.
Qed.

Lemma py_getitem_Raise {A} (l : list A) (i : nat) :
  py_getitem l i = Raise IndexError ↔ (List.length l ≤ i)%nat.
Proof.
  unfold py_getitem. destruct (l !! i) eqn:E.
  - split; [done|]. intros Hle. apply lookup_ge_None_2 in Hle. congruence.
  - split; [|done]. intros _. by apply lookup_ge_None.
Qed.

(** Unfolds a class call as far as the next answer of the library: the
    monad and the constructors are computed away, the attribute dictionary
    and the indexing of the availability zones are kept as they are. *)
Ltac run_init :=
  cbv [deploy StorageTier StorageTierDocDB StorageTierMongoDB instantiate
       StorageTier__init__ StorageTierDocDB__init__ StorageTierMongoDB__init__
       mbind mret M_bind M_ret lift self_path declare library_call setattr
       new_FileSystem new_MountableEfs new_DatabaseCluster
       new_X509CertificatePem new_X509CertificatePkcs12 new_MongoDbInstance
       new_MongoDbPostInstallSetup new_DatabaseConnection
       Stack.init Stack.path Stack.scope Stack.stack_id Stack.children
       Stack.library_children Stack.attrs Stack.assignments].

(** One answer of the library, or the indexing of the zones: the case in
    which the call raises is closed by [raised], the other one goes on. *)
Ltac next_answer raised :=
  first
    [ rewrite py_getitem_0;
      match goal with
      | |- context [match ?l with [] => _ | _ :: _ => _ end] =>
          destruct l as [|? ?] eqn:?; run_init; [raised|]
      end
    | match goal with
      | |- context [if ?b then _ else _] =>
          destruct b eqn:?; run_init; [raised|]
      end ].

(** From [... = Ok self] in the goal to the stack: every call was accepted
    and there was a first availability zone. *)
Ltac returned_stack :=
  run_init; repeat next_answer ltac:(by intros [=]); intros [= <-].

(** The same for [deploy], by cases on the class instantiated. *)
Ltac deployment_returned d :=
  destruct d as [props|props|props]; returned_stack.

(** Runs a class call on a sample, with the sample library. *)
Ltac run_sample :=
  cbv [sample_docdb_stack sample_mongodb_stack returned];
  run_init;
  cbv [sample_library refuses refuses_stack adds String.eqb Ascii.eqb
       Bool.eqb app
       sample_mongodb_props sample_docdb_props sample_props mongodb_props_in
       StorageTierMongoDBProps.accept_sspl_license
       MongoDbInstance.mongo_db MongoDbApplicationProps.user_sspl_acceptance];
  reflexivity.

(** Reads one attribute, or one kind of construct, off an explicit stack. *)
Ltac read_stack :=
  cbv [getattr_database getattr_file_system database_assignments
       file_system_assignments assignments_to assigned_names data_stores
       file_systems database_clusters pem_certificates pkcs12_certificates
       mongo_db_instances post_install_setups
       deployment_vpc deployment_base
       StorageTierDocDBProps.vpc StorageTierMongoDBProps.vpc
       Stack.children Stack.attrs Stack.assignments];
  repeat first
    [ rewrite lookup_insert_eq
    | rewrite lookup_insert_ne by done ];
  cbn [omap list_omap fmap list_fmap app String.eqb Ascii.eqb Bool.eqb
       assigned_name assigned_value assigned_by MountableEfs.filesystem
       data_store_of_connection construct_id construct_vpc
       FileSystem.id FileSystem.vpc
       DatabaseCluster.id DatabaseCluster.instance_props InstanceProps.vpc
       X509CertificatePem.id X509CertificatePkcs12.id
       MongoDbInstance.id MongoDbInstance.vpc
       MongoDbPostInstallSetup.id MongoDbPostInstallSetup.vpc].

Lemma dumps_x509_user_roles : json.dumps x509_user_roles = x509_user_roles_text.
Proof. reflexivity. Qed.

(** The sample deployments return their stacks. *)
Lemma sample_docdb_returned :
  StorageTierDocDB sample_library ["App"] "StorageTier" sample_docdb_props
  = Ok sample_docdb_stack.
Proof. run_sample. Defined.

Lemma sample_mongodb_returned :
  StorageTierMongoDB sample_library ["App"] "StorageTier" sample_mongodb_props
  = Ok sample_mongodb_stack.
Proof. run_sample. Defined.

(** The only exception the base class and the DocumentDB variant raise is
    the library's. *)
Lemma StorageTierDocDB_raises (lib : Library) (scope : ConstructPath)
    (stack_id : string) (props : StorageTierDocDBProps.t) (e : PyException) :
  StorageTierDocDB lib scope stack_id props = Raise e → e = JSIIError.
Proof.
  run_init. repeat next_answer ltac:(by intros [= <-]). by intros [=].
Qed.

(** ** Zone selection *)

(** C9. [StorageTierMongoDB.__init__] indexes element 0 of the VPC's list of
    availability zones.  When the list is empty, no stack is ever returned,
    and the exception is [IndexError] as soon as the library accepted what
    the constructor declares before the indexing.  When the list has a first
    element the indexing returns it and the constructor goes on: it never
    raises [IndexError], the stack it returns has its MongoDB instance in
    that zone, and it returns one when the library refuses nothing. *)
Theorem mongodb_construction_partial
    (lib : Library) (scope : ConstructPath) (stack_id : string)
    (props : StorageTierMongoDBProps.t) :
  match IVpc.availability_zones (StorageTierMongoDBProps.vpc props) with
  | [] =>
      (∀ self, StorageTierMongoDB lib scope stack_id props ≠ Ok self) ∧
      (accepts_before_zone_selection lib scope stack_id →
       StorageTierMongoDB lib scope stack_id props = Raise IndexError)
  | zone :: zones =>
      py_getitem (zone :: zones) 0 = Ok zone ∧
      StorageTierMongoDB lib scope stack_id props ≠ Raise IndexError ∧
      (∀ self,
         StorageTierMongoDB lib scope stack_id props = Ok self →
         ∃ instance,
           mongo_db_instances self = [instance] ∧
           (MongoDbInstance.vpc_subnets instance ≫=
              SubnetSelection.availability_zones) = Some [zone]) ∧
      (accepts_all lib scope stack_id →
       ∃ self, StorageTierMongoDB lib scope stack_id props = Ok self)
  end.
Proof.
  destruct (IVpc.availability_zones _) as [|zone zones] eqn:Hzones.
  - split.
    + intros self. revert self.
      assert (∀ self, StorageTierMongoDB lib scope stack_id props = Ok self
                      → False) as Hnever; [|exact Hnever].
      intros self. returned_stack. discriminate.
    + intros (Hid & Hstack & Hcalls). apply String.eqb_neq in Hid.
      run_init. rewrite Hid, Hstack. run_init.
      rewrite !Hcalls by done. run_init.
      by rewrite py_getitem_0, Hzones.
  - split; [done|]. split; [|split].
    + run_init. repeat next_answer ltac:(done). done.
    + intros self. returned_stack. simplify_eq. eexists. by read_stack.
    + intros (Hid & Hstack & Hcalls). apply String.eqb_neq in Hid.
      run_init. rewrite Hid, Hstack. run_init.
      rewrite py_getitem_0, Hzones, !Hcalls. run_init. by eexists.
Qed.

Lemma mongodb_construction_partial_witness :
  StorageTierMongoDB sample_library ["App"] "StorageTier"
    zoneless_mongodb_props = Raise IndexError ∧
  ∃ instance,
    StorageTierMongoDB sample_library ["App"] "StorageTier"
      sample_mongodb_props = Ok sample_mongodb_stack ∧
    mongo_db_instances sample_mongodb_stack = [instance] ∧
    (MongoDbInstance.vpc_subnets instance ≫=
       SubnetSelection.availability_zones) = Some ["us-west-2a"].
Proof.
  split.
  - apply (mongodb_construction_partial sample_library ["App"] "StorageTier"
             zoneless_mongodb_props).
    split; [discriminate|]. split; [reflexivity|].
    by intros path declared [[]| |].
  - destruct (mongodb_construction_partial sample_library ["App"]
                "StorageTier" sample_mongodb_props)
      as (_ & _ & Hplaced & _).
    destruct (Hplaced sample_mongodb_stack sample_mongodb_returned)
      as (instance & Hinst & Hzone).
    exists instance.
    exact (conj sample_mongodb_returned (conj Hinst Hzone)).
Defined.

(** C6. When the VPC reports a non-empty list of availability zones, a
    stack [StorageTierMongoDB] returns declares one MongoDB instance and one
    post-install step, and the subnet selection of both is private subnets
    restricted to the single zone that is the first element of the list. *)
Theorem mongodb_single_zone
    (lib : Library) (scope : ConstructPath) (stack_id : string)
    (props : StorageTierMongoDBProps.t) (zone : string) (zones : list string)
    (self : Stack.t) :
  IVpc.availability_zones (StorageTierMongoDBProps.vpc props) = zone :: zones →
  StorageTierMongoDB lib scope stack_id props = Ok self →
  ∃ instance setup,
    mongo_db_instances self = [instance] ∧
    post_install_setups self = [setup] ∧
    MongoDbPostInstallSetup.mongo_db setup = instance ∧
    MongoDbInstance.vpc_subnets instance =
      Some {| SubnetSelection.subnet_type := Some PRIVATE;
              SubnetSelection.availability_zones := Some [zone] |} ∧
    MongoDbPostInstallSetup.vpc_subnets setup =
      MongoDbInstance.vpc_subnets instance.
Proof.
  intros Hzones. returned_stack. simplify_eq.
  eexists _, _. by read_stack.
Qed.

Lemma mongodb_single_zone_witness :
  ∃ instance setup,
    StorageTierMongoDB sample_library ["App"] "StorageTier"
      sample_mongodb_props = Ok sample_mongodb_stack ∧
    mongo_db_instances sample_mongodb_stack = [instance] ∧
    post_install_setups sample_mongodb_stack = [setup] ∧
    MongoDbInstance.vpc_subnets instance =
      Some {| SubnetSelection.subnet_type := Some PRIVATE;
              SubnetSelection.availability_zones := Some ["us-west-2a"] |} ∧
    MongoDbPostInstallSetup.vpc_subnets setup =
      MongoDbInstance.vpc_subnets instance.
Proof.
  destruct (mongodb_single_zone sample_library ["App"] "StorageTier"
              sample_mongodb_props "us-west-2a" ["us-west-2b"]
              sample_mongodb_stack eq_refl sample_mongodb_returned)
    as (instance & setup & Hinst & Hsetup & _ & Hsubnets & Hsame).
  exists instance, setup.
  exact (conj sample_mongodb_returned
           (conj Hinst (conj Hsetup (conj Hsubnets Hsame)))).
Defined.

(** ** The database-connection attribute *)

(** C1. In every stack a deployment returns, the assignments to
    [self.database] are these and no other: first [None], by
    [StorageTier.__init__]; then, when the class instantiated is one of the
    two variants, the connection, once, by the [__init__] of that variant.
    The attribute holds the last value assigned: the connection in a
    variant, [None] in the base class.  The whole history of the attribute
    assignments is [file_system], [database] and, in a variant, [database]
    again. *)
Theorem database_assigned_once
    (lib : Library) (scope : ConstructPath) (stack_id : string)
    (d : Deployment) (self : Stack.t) :
  deploy lib scope stack_id d = Ok self →
  match d with
  | DeployStorageTier _ =>
      getattr_database self = Some None ∧
      database_assignments self = [(ClsStorageTier, VDatabase None)] ∧
      assigned_names self = ["file_system"; "database"]
  | DeployStorageTierDocDB _ | DeployStorageTierMongoDB _ =>
      ∃ connection,
        getattr_database self = Some (Some connection) ∧
        database_assignments self =
          [(ClsStorageTier, VDatabase None);
           (variant_class d, VDatabase (Some connection))] ∧
        assigned_names self = ["file_system"; "database"; "database"]
  end.
Proof.
  deployment_returned d.
  - by read_stack.
  - eexists. by read_stack.
  - eexists. by read_stack.
Qed.

Lemma database_assigned_once_witness :
  ∃ connection,
    deploy sample_library ["App"] "StorageTier"
      (DeployStorageTierDocDB sample_docdb_props) = Ok sample_docdb_stack ∧
    getattr_database sample_docdb_stack = Some (Some connection) ∧
    database_assignments sample_docdb_stack =
      [(ClsStorageTier, VDatabase None);
       (ClsStorageTierDocDB, VDatabase (Some connection))].
Proof.
  destruct (database_assigned_once sample_library ["App"] "StorageTier"
              (DeployStorageTierDocDB sample_docdb_props) sample_docdb_stack
              sample_docdb_returned)
    as (connection & Hget & Hassigned & _).
  exists connection.
  exact (conj sample_docdb_returned (conj Hget Hassigned)).
Defined.

(** ** The DocumentDB variant *)

(** C2. The database connection of a stack [StorageTierDocDB] returns wraps
    the one cluster the stack declares, and that cluster is declared with
    [instances=1] and a backup retention of [Duration.days(15)]. *)
Theorem docdb_single_instance_15_days
    (lib : Library) (scope : ConstructPath) (stack_id : string)
    (props : StorageTierDocDBProps.t) (self : Stack.t) :
  StorageTierDocDB lib scope stack_id props = Ok self →
  ∃ cluster login,
    getattr_database self =
      Some (Some (DatabaseConnection.for_doc_db cluster login)) ∧
    database_clusters self = [cluster] ∧
    DatabaseCluster.instances cluster = Some 1%Z ∧
    (BackupProps.retention <$> DatabaseCluster.backup cluster)
      = Some (Duration.days 15) ∧
    (DatabaseCluster.backup cluster ≫= λ b,
       Duration.to_days (BackupProps.retention b)) = Some 15%Z.
Proof.
  returned_stack. eexists _, _. by read_stack.
Qed.

Lemma docdb_single_instance_15_days_witness :
  ∃ cluster login,
    StorageTierDocDB sample_library ["App"] "StorageTier" sample_docdb_props
      = Ok sample_docdb_stack ∧
    getattr_database sample_docdb_stack =
      Some (Some (DatabaseConnection.for_doc_db cluster login)) ∧
    DatabaseCluster.instances cluster = Some 1%Z ∧
    (BackupProps.retention <$> DatabaseCluster.backup cluster)
      = Some (Duration.days 15).
Proof.
  destruct (docdb_single_instance_15_days sample_library ["App"] "StorageTier"
              sample_docdb_props sample_docdb_stack sample_docdb_returned)
    as (cluster & login & Hget & _ & Hinstances & Hretention & _).
  exists cluster, login.
  exact (conj sample_docdb_returned
           (conj Hget (conj Hinstances Hretention))).
Defined.

(** C8. The cluster a stack [StorageTierDocDB] returns declares has the
    master user ['adminuser'] and the engine version ['3.6.0']; the database
    connection wraps that cluster together with [doc_db.secret], the
    credentials the cluster generates for that user. *)
Theorem docdb_login_and_secret
    (lib : Library) (scope : ConstructPath) (stack_id : string)
    (props : StorageTierDocDBProps.t) (self : Stack.t) :
  StorageTierDocDB lib scope stack_id props = Ok self →
  ∃ cluster,
    database_clusters self = [cluster] ∧
    DatabaseCluster.id cluster = "DocDBCluster" ∧
    Login.username (DatabaseCluster.master_user cluster) = "adminuser" ∧
    Login.password (DatabaseCluster.master_user cluster) = None ∧
    DatabaseCluster.engine_version cluster = Some "3.6.0" ∧
    getattr_database self =
      Some (Some (DatabaseConnection.for_doc_db cluster
                    (DatabaseCluster_secret cluster))) ∧
    DatabaseCluster_secret cluster =
      Some (DatabaseSecret (DatabaseCluster.scope cluster)
              (DatabaseCluster.id cluster) "adminuser").
Proof.
  returned_stack. eexists. by read_stack.
Qed.

Lemma docdb_login_and_secret_witness :
  ∃ cluster,
    StorageTierDocDB sample_library ["App"] "StorageTier" sample_docdb_props
      = Ok sample_docdb_stack ∧
    database_clusters sample_docdb_stack = [cluster] ∧
    Login.username (DatabaseCluster.master_user cluster) = "adminuser" ∧
    DatabaseCluster.engine_version cluster = Some "3.6.0" ∧
    getattr_database sample_docdb_stack =
      Some (Some (DatabaseConnection.for_doc_db cluster
                    (DatabaseCluster_secret cluster))).
Proof.
  destruct (docdb_login_and_secret sample_library ["App"] "StorageTier"
              sample_docdb_props sample_docdb_stack sample_docdb_returned)
    as (cluster & Hclusters & _ & Huser & _ & Hengine & Hget & _).
  exists cluster.
  exact (conj sample_docdb_returned
           (conj Hclusters (conj Huser (conj Hengine Hget)))).
Defined.

(** ** The MongoDB variant *)

(** C3. A stack [StorageTierMongoDB] returns declares one post-install
    step, with one X.509 user and no other; the user's certificate is the
    client certificate's, and its roles are the JSON text of a list of two
    entries, [readWriteAnyDatabase] on [admin] and [clusterMonitor] on
    [admin]. *)
Theorem mongodb_post_install_roles
    (lib : Library) (scope : ConstructPath) (stack_id : string)
    (props : StorageTierMongoDBProps.t) (self : Stack.t) :
  StorageTierMongoDB lib scope stack_id props = Ok self →
  ∃ setup user connection_instance client_pkcs12,
    post_install_setups self = [setup] ∧
    MongoDbUsers.x509_auth_users (MongoDbPostInstallSetup.users setup)
      = Some [user] ∧
    getattr_database self =
      Some (Some (DatabaseConnection.for_mongo_db_instance
                    connection_instance client_pkcs12)) ∧
    MongoDbX509User.certificate user =
      X509CertificatePem_cert
        (X509CertificatePkcs12.source_certificate client_pkcs12) ∧
    MongoDbX509User.roles user =
      json.dumps
        (json.List
           [ json.Dict [("role", json.Str "readWriteAnyDatabase");
                        ("db", json.Str "admin")];
             json.Dict [("role", json.Str "clusterMonitor");
                        ("db", json.Str "admin")] ]) ∧
    MongoDbX509User.roles user = x509_user_roles_text.
Proof.
  returned_stack. eexists _, _, _, _. by read_stack.
Qed.

Lemma mongodb_post_install_roles_witness :
  ∃ setup user,
    StorageTierMongoDB sample_library ["App"] "StorageTier"
      sample_mongodb_props = Ok sample_mongodb_stack ∧
    post_install_setups sample_mongodb_stack = [setup] ∧
    MongoDbUsers.x509_auth_users (MongoDbPostInstallSetup.users setup)
      = Some [user] ∧
    MongoDbX509User.roles user = x509_user_roles_text.
Proof.
  pose proof sample_mongodb_returned as Hreturned.
  destruct (mongodb_post_install_roles sample_library ["App"]
              "StorageTier"
              sample_mongodb_props sample_mongodb_stack Hreturned)
    as (setup & user & _ & _ & Hsetup & Husers & _ & _ & _ & Htext).
  exists setup, user. exact (conj Hreturned (conj Hsetup (conj Husers Htext))).
Defined.

(** C4. In a stack [StorageTierMongoDB] returns, the PEM certificates
    declared are the server certificate and the client certificate, in that
    order, and the signing certificate of both is [props.root_ca]; the
    server certificate is the one the MongoDB instance is declared with, and
    the client certificate is the source of the PKCS#12 bundle the database
    connection holds. *)
Theorem mongodb_certificates_signed_by_root_ca
    (lib : Library) (scope : ConstructPath) (stack_id : string)
    (props : StorageTierMongoDBProps.t) (self : Stack.t) :
  StorageTierMongoDB lib scope stack_id props = Ok self →
  ∃ server_cert client_cert instance client_pkcs12,
    pem_certificates self = [server_cert; client_cert] ∧
    X509CertificatePem.id server_cert = "MongoCert" ∧
    X509CertificatePem.id client_cert = "DeadlineMongoCert" ∧
    X509CertificatePem.signing_certificate server_cert
      = Some (StorageTierMongoDBProps.root_ca props) ∧
    X509CertificatePem.signing_certificate client_cert
      = Some (StorageTierMongoDBProps.root_ca props) ∧
    getattr_database self =
      Some (Some (DatabaseConnection.for_mongo_db_instance
                    instance client_pkcs12)) ∧
    MongoDbApplicationProps.server_certificate
      (MongoDbInstance.mongo_db instance) = server_cert ∧
    X509CertificatePkcs12.source_certificate client_pkcs12 = client_cert.
Proof.
  returned_stack. eexists _, _, _, _. by read_stack.
Qed.

Lemma mongodb_certificates_signed_by_root_ca_witness :
  ∃ server_cert client_cert,
    StorageTierMongoDB sample_library ["App"] "StorageTier"
      sample_mongodb_props = Ok sample_mongodb_stack ∧
    pem_certificates sample_mongodb_stack = [server_cert; client_cert] ∧
    X509CertificatePem.signing_certificate server_cert = Some sample_root_ca ∧
    X509CertificatePem.signing_certificate client_cert = Some sample_root_ca.
Proof.
  pose proof sample_mongodb_returned as Hreturned.
  destruct (mongodb_certificates_signed_by_root_ca sample_library ["App"]
              "StorageTier"
              sample_mongodb_props sample_mongodb_stack Hreturned)
    as (server_cert & client_cert & _ & _ & Hpem & _ & _ & Hs & Hc & _).
  exists server_cert, client_cert.
  exact (conj Hreturned (conj Hpem (conj Hs Hc))).
Defined.

(** C7. The database connection of a stack [StorageTierMongoDB] returns is
    [DatabaseConnection.for_mongo_db_instance] of the one MongoDB instance
    the stack declares and of the one PKCS#12 bundle it declares, whose
    source is the client certificate ['DeadlineMongoCert']. *)
Theorem mongodb_connection_wraps_pkcs12
    (lib : Library) (scope : ConstructPath) (stack_id : string)
    (props : StorageTierMongoDBProps.t) (self : Stack.t) :
  StorageTierMongoDB lib scope stack_id props = Ok self →
  ∃ instance client_pkcs12 server_cert client_cert,
    getattr_database self =
      Some (Some (DatabaseConnection.for_mongo_db_instance
                    instance client_pkcs12)) ∧
    mongo_db_instances self = [instance] ∧
    MongoDbInstance.id instance = "MongoDb" ∧
    pkcs12_certificates self = [client_pkcs12] ∧
    X509CertificatePkcs12.id client_pkcs12 = "DeadlineMongoPkcs12" ∧
    pem_certificates self = [server_cert; client_cert] ∧
    X509CertificatePkcs12.source_certificate client_pkcs12 = client_cert ∧
    X509CertificatePem.id client_cert = "DeadlineMongoCert".
Proof.
  returned_stack. eexists _, _, _, _. by read_stack.
Qed.

Lemma mongodb_connection_wraps_pkcs12_witness :
  ∃ instance client_pkcs12,
    StorageTierMongoDB sample_library ["App"] "StorageTier"
      sample_mongodb_props = Ok sample_mongodb_stack ∧
    getattr_database sample_mongodb_stack =
      Some (Some (DatabaseConnection.for_mongo_db_instance
                    instance client_pkcs12)) ∧
    mongo_db_instances sample_mongodb_stack = [instance] ∧
    pkcs12_certificates sample_mongodb_stack = [client_pkcs12].
Proof.
  pose proof sample_mongodb_returned as Hreturned.
  destruct (mongodb_connection_wraps_pkcs12 sample_library ["App"]
              "StorageTier"
              sample_mongodb_props sample_mongodb_stack Hreturned)
    as (instance & client_pkcs12 & _ & _ & Hdb & Hinst & _ & Hp12 & _).
  exists instance, client_pkcs12.
  exact (conj Hreturned (conj Hdb (conj Hinst Hp12))).
Defined.

(** C10. In a stack [StorageTierMongoDB] returns, the common name of the
    server certificate the MongoDB instance is declared with is ['mongo.']
    followed by the name of [props.dns_zone]; the instance is declared with
    the hostname ['mongo'] in that same zone, so the common name is the name
    the instance is registered under. *)
Theorem mongodb_server_cert_names_instance
    (lib : Library) (scope : ConstructPath) (stack_id : string)
    (props : StorageTierMongoDBProps.t) (self : Stack.t) :
  StorageTierMongoDB lib scope stack_id props = Ok self →
  ∃ instance server_cert,
    mongo_db_instances self = [instance] ∧
    MongoDbApplicationProps.server_certificate
      (MongoDbInstance.mongo_db instance) = server_cert ∧
    CX509CertificatePem server_cert ∈ Stack.children self ∧
    DistinguishedName.cn (X509CertificatePem.subject server_cert) =
      "mongo." +:+
      IPrivateHostedZone.zone_name (StorageTierMongoDBProps.dns_zone props) ∧
    MongoDbApplicationProps.hostname (MongoDbInstance.mongo_db instance)
      = "mongo" ∧
    MongoDbApplicationProps.dns_zone (MongoDbInstance.mongo_db instance) =
      StorageTierMongoDBProps.dns_zone props ∧
    DistinguishedName.cn (X509CertificatePem.subject server_cert) =
      MongoDbInstance.full_hostname instance.
Proof.
  returned_stack. eexists _, _.
  split; [by read_stack|]. split; [reflexivity|].
  cbv [Stack.children]. cbn [app].
  split; [|done]. apply list_elem_of_further, list_elem_of_here.
Qed.

Lemma mongodb_server_cert_names_instance_witness :
  ∃ instance,
    StorageTierMongoDB sample_library ["App"] "StorageTier"
      sample_mongodb_props = Ok sample_mongodb_stack ∧
    mongo_db_instances sample_mongodb_stack = [instance] ∧
    MongoDbInstance.full_hostname instance = "mongo.deadline-test.internal" ∧
    DistinguishedName.cn
      (X509CertificatePem.subject
         (MongoDbApplicationProps.server_certificate
            (MongoDbInstance.mongo_db instance)))
      = "mongo.deadline-test.internal".
Proof.
  pose proof sample_mongodb_returned as Hreturned.
  destruct (mongodb_server_cert_names_instance sample_library ["App"]
              "StorageTier"
              sample_mongodb_props sample_mongodb_stack Hreturned)
    as (instance & server_cert & Hinst & <- & _ & Hcn & _ & _ & Hfull).
  exists instance.
  refine (conj Hreturned (conj Hinst (conj _ _))).
  - rewrite <- Hfull. exact Hcn.
  - exact Hcn.
Defined.

(** ** Removal policies *)

(** The data stores of a stack [StorageTierMongoDB] returns: the file
    system and the MongoDB instance. *)
Lemma mongodb_data_stores
    (lib : Library) (scope : ConstructPath) (stack_id : string)
    (props : StorageTierMongoDBProps.t) (self : Stack.t) :
  StorageTierMongoDB lib scope stack_id props = Ok self →
  ∃ filesystem instance,
    file_systems self = [filesystem] ∧
    mongo_db_instances self = [instance] ∧
    data_stores self = [CFileSystem filesystem; CMongoDbInstance instance].
Proof.
  returned_stack. eexists _, _. by read_stack.
Qed.

Lemma only_destroy_nil : only_destroy [].
Proof. intros c policy Hc. by apply elem_of_nil in Hc. Qed.

Lemma only_destroy_cons (c : Construct) (l : list Construct) :
  (removal_policy_of c = None ∨ removal_policy_of c = Some DESTROY) →
  only_destroy l → only_destroy (c :: l).
Proof.
  intros Hc Hl c' policy [->|Hin]%elem_of_cons Hpolicy.
  - destruct Hc as [Hc|Hc]; congruence.
  - by apply (Hl c').
Qed.

(** C5, as it is stated, fails: the database of the MongoDB variant is a
    data store of the storage tier, it is declared by the stack, and it is
    declared without [RemovalPolicy.DESTROY]. *)
Lemma mongodb_instance_not_declared_destroy :
  deploy sample_library ["App"] "StorageTier"
    (DeployStorageTierMongoDB sample_mongodb_props)
    = Ok sample_mongodb_stack ∧
  ¬ (∀ c, c ∈ data_stores sample_mongodb_stack →
          removal_policy_of c = Some DESTROY).
Proof.
  pose proof sample_mongodb_returned as Hreturned.
  split; [exact Hreturned|].
  destruct (mongodb_data_stores _ _ _ _ _ Hreturned)
    as (filesystem & instance & _ & _ & ->).
  intros Hall.
  specialize (Hall (CMongoDbInstance instance)).
  cbn [removal_policy_of] in Hall.
  assert (None = Some DESTROY) as Habsurd; [|discriminate Habsurd].
  apply Hall, list_elem_of_further, list_elem_of_here.
Qed.

(** C5, amended.  In every deployment the only removal policy any construct
    of the stack is declared with is [DESTROY], whatever the props; the one
    file system every variant declares is declared with it, and so is the
    one cluster [StorageTierDocDB] declares.  The data stores of the stack
    are that file system and, in the two variants, the cluster or the
    MongoDB instance; the MongoDB instance is declared without a removal
    policy. *)
Theorem removal_policies_declared
    (lib : Library) (scope : ConstructPath) (stack_id : string)
    (d : Deployment) (self : Stack.t) :
  deploy lib scope stack_id d = Ok self →
  only_destroy (Stack.children self) ∧
  ∃ filesystem,
    file_systems self = [filesystem] ∧
    FileSystem.removal_policy filesystem = Some DESTROY ∧
    match d with
    | DeployStorageTier _ =>
        database_clusters self = [] ∧
        data_stores self = [CFileSystem filesystem]
    | DeployStorageTierDocDB _ =>
        ∃ cluster,
          database_clusters self = [cluster] ∧
          DatabaseCluster.removal_policy cluster = Some DESTROY ∧
          data_stores self = [CFileSystem filesystem; CDatabaseCluster cluster]
    | DeployStorageTierMongoDB _ =>
        ∃ instance,
          database_clusters self = [] ∧
          mongo_db_instances self = [instance] ∧
          data_stores self = [CFileSystem filesystem; CMongoDbInstance instance] ∧
          removal_policy_of (CMongoDbInstance instance) = None
    end.
Proof.
  destruct d as [props|props|props].
  - returned_stack. split.
    + cbv [Stack.children]. cbn [app].
      repeat first [ apply only_destroy_nil
                   | apply only_destroy_cons; [cbn; auto|] ].
    + eexists. by read_stack.
  - returned_stack. split.
    + cbv [Stack.children]. cbn [app].
      repeat first [ apply only_destroy_nil
                   | apply only_destroy_cons; [cbn; auto|] ].
    + eexists. split; [by read_stack|]. split; [done|].
      eexists. by read_stack.
  - returned_stack. split.
    + cbv [Stack.children]. cbn [app].
      repeat first [ apply only_destroy_nil
                   | apply only_destroy_cons; [cbn; auto|] ].
    + eexists. split; [by read_stack|]. split; [done|].
      eexists. by read_stack.
Qed.

Lemma removal_policies_declared_witness :
  ∃ filesystem cluster,
    deploy sample_library ["App"] "StorageTier"
      (DeployStorageTierDocDB sample_docdb_props)
      = Ok sample_docdb_stack ∧
    only_destroy (Stack.children sample_docdb_stack) ∧
    data_stores sample_docdb_stack
      = [CFileSystem filesystem; CDatabaseCluster cluster] ∧
    FileSystem.removal_policy filesystem = Some DESTROY ∧
    DatabaseCluster.removal_policy cluster = Some DESTROY.
Proof.
  pose proof sample_docdb_returned as Hreturned.
  destruct (removal_policies_declared sample_library ["App"]
              "StorageTier"
              (DeployStorageTierDocDB sample_docdb_props)
              sample_docdb_stack Hreturned)
    as (Honly & filesystem & _ & Hfs & cluster & _ & Hcluster & Hstores).
  exists filesystem, cluster.
  exact (conj Hreturned (conj Honly (conj Hstores (conj Hfs Hcluster)))).
Defined.


(** * Further properties of the three constructors *)

(** Replays, in a second call, the answers the library gave in the first. *)
Ltac same_answers :=
  run_init;
  repeat match goal with
         | H : ?b = false |- context [if ?b then _ else _] =>
             rewrite H; run_init
         end.

(** ** The file system *)

(** X1. In a stack any of the three classes returns there is one assignment
    to [self.file_system] and no other, whatever the value: the one of
    [StorageTier.__init__].  The attribute holds the [MountableEfs] assigned
    then; it is on the one file system the stack declares, which is
    ['EfsFileSystem'] in the VPC of the props. *)
Theorem file_system_mounts_declared_efs
    (lib : Library) (scope : ConstructPath) (stack_id : string)
    (d : Deployment) (self : Stack.t) :
  deploy lib scope stack_id d = Ok self →
  ∃ mountable filesystem,
    getattr_file_system self = Some mountable ∧
    file_system_assignments self
      = [(ClsStorageTier, VMountableEfs mountable)] ∧
    MountableEfs.filesystem mountable = filesystem ∧
    file_systems self = [filesystem] ∧
    FileSystem.id filesystem = "EfsFileSystem" ∧
    FileSystem.vpc filesystem = deployment_vpc d.
Proof.
  deployment_returned d; eexists _, _; by read_stack.
Qed.

Lemma file_system_mounts_declared_efs_witness :
  ∃ mountable,
    deploy sample_library ["App"] "StorageTier"
      (DeployStorageTierMongoDB sample_mongodb_props)
      = Ok sample_mongodb_stack ∧
    getattr_file_system sample_mongodb_stack = Some mountable ∧
    file_system_assignments sample_mongodb_stack
      = [(ClsStorageTier, VMountableEfs mountable)] ∧
    FileSystem.vpc (MountableEfs.filesystem mountable) = sample_vpc.
Proof.
  pose proof sample_mongodb_returned as Hreturned.
  destruct (file_system_mounts_declared_efs sample_library ["App"]
              "StorageTier" (DeployStorageTierMongoDB sample_mongodb_props)
              sample_mongodb_stack Hreturned)
    as (mountable & filesystem & Hget & Hassigned & <- & _ & _ & Hvpc).
  exists mountable.
  exact (conj Hreturned (conj Hget (conj Hassigned Hvpc))).
Defined.

(** ** The variants extend the base class *)

(** X2. A stack one of the classes returns extends the stack the base class
    returns for the same scope, id and VPC: the same constructs first, the
    same assignments first, the same [self.file_system].  What a variant
    adds comes after, and it undoes nothing [StorageTier.__init__] did. *)
Theorem variant_extends_base
    (lib : Library) (scope : ConstructPath) (stack_id : string)
    (d : Deployment) (self : Stack.t) :
  deploy lib scope stack_id d = Ok self →
  ∃ base_self,
    StorageTier lib scope stack_id (deployment_base d) = Ok base_self ∧
    Stack.children base_self `prefix_of` Stack.children self ∧
    Stack.assignments base_self `prefix_of` Stack.assignments self ∧
    getattr_file_system self = getattr_file_system base_self.
Proof.
  deployment_returned d;
    (eexists; split; [cbn [deployment_base]; same_answers; reflexivity|]);
    cbv [Stack.children Stack.assignments]; cbn [app];
    (split; [|split]); try (by read_stack);
    try (eexists; cbn [app]; reflexivity).
Qed.

Lemma variant_extends_base_witness :
  ∃ base_self,
    deploy sample_library ["App"] "StorageTier"
      (DeployStorageTierDocDB sample_docdb_props)
      = Ok sample_docdb_stack ∧
    StorageTier sample_library ["App"] "StorageTier" sample_props
      = Ok base_self ∧
    Stack.children base_self `prefix_of` Stack.children sample_docdb_stack.
Proof.
  pose proof sample_docdb_returned as Hreturned.
  destruct (variant_extends_base sample_library ["App"] "StorageTier"
              (DeployStorageTierDocDB sample_docdb_props)
              sample_docdb_stack Hreturned)
    as (base_self & Hbase & Hchildren & _).
  exists base_self.
  exact (conj Hreturned (conj Hbase Hchildren)).
Defined.

(** ** Ids and network of the declared constructs *)

(** X3. The ids of the constructs the module itself declares in a returned
    stack, in declaration order: the file system alone for the base class,
    then either the cluster or the two certificates, the bundle, the
    instance and the post-install step.  No two constructor calls of the
    module use the same id.  (The constructs the libraries add under the
    stack on their own are not among them.) *)
Theorem construct_ids_distinct
    (lib : Library) (scope : ConstructPath) (stack_id : string)
    (d : Deployment) (self : Stack.t) :
  deploy lib scope stack_id d = Ok self →
  declared_ids self =
    match d with
    | DeployStorageTier _ => ["EfsFileSystem"]
    | DeployStorageTierDocDB _ => ["EfsFileSystem"; "DocDBCluster"]
    | DeployStorageTierMongoDB _ =>
        ["EfsFileSystem"; "MongoCert"; "DeadlineMongoCert";
         "DeadlineMongoPkcs12"; "MongoDb"; "MongoDbPostInstall"]
    end ∧
  NoDup (declared_ids self).
Proof.
  deployment_returned d; cbv [declared_ids]; read_stack;
    (split; [reflexivity|]);
    repeat (apply NoDup_cons; split;
            [rewrite ?elem_of_cons, elem_of_nil; intros Hin;
             repeat destruct Hin as [Hin|Hin]; done |]);
    apply NoDup_nil_2.
Qed.

Lemma construct_ids_distinct_witness :
  deploy sample_library ["App"] "StorageTier"
    (DeployStorageTierMongoDB sample_mongodb_props)
    = Ok sample_mongodb_stack ∧
  NoDup (declared_ids sample_mongodb_stack).
Proof.
  pose proof sample_mongodb_returned as Hreturned.
  exact (conj Hreturned
           (proj2 (construct_ids_distinct sample_library ["App"]
                     "StorageTier"
                     (DeployStorageTierMongoDB sample_mongodb_props)
                     sample_mongodb_stack Hreturned))).
Defined.

(** X5. A returned stack has one network: every construct that takes a VPC
    (the file system, the cluster through its instance props, the MongoDB
    instance, the post-install step) is declared in the VPC of the props. *)
Theorem constructs_in_props_vpc
    (lib : Library) (scope : ConstructPath) (stack_id : string)
    (d : Deployment) (self : Stack.t) :
  deploy lib scope stack_id d = Ok self →
  Forall (λ c, ∀ vpc, construct_vpc c = Some vpc → vpc = deployment_vpc d)
         (Stack.children self).
Proof.
  deployment_returned d; cbv [Stack.children]; cbn [app];
    repeat (apply Forall_cons; split;
            [intros vpc; read_stack; by intros [= <-] |]);
    apply Forall_nil_2.
Qed.

Lemma constructs_in_props_vpc_witness :
  deploy sample_library ["App"] "StorageTier"
    (DeployStorageTierMongoDB sample_mongodb_props)
    = Ok sample_mongodb_stack ∧
  Forall (λ c, ∀ vpc, construct_vpc c = Some vpc → vpc = sample_vpc)
         (Stack.children sample_mongodb_stack).
Proof.
  pose proof sample_mongodb_returned as Hreturned.
  exact (conj Hreturned
           (constructs_in_props_vpc sample_library ["App"] "StorageTier"
              (DeployStorageTierMongoDB sample_mongodb_props)
              sample_mongodb_stack Hreturned)).
Defined.

(** ** What the variants forward from their props *)

(** X6. [StorageTierDocDB] never reads the availability zones of the VPC:
    whatever they are it never raises [IndexError] (the only exception it
    raises is the library's), and in a stack it returns the instances of
    the cluster are declared in the VPC of the props, in private subnets of
    any zone, with the instance type of the props; no MongoDB instance and
    no certificate is declared. *)
Theorem docdb_instances_in_private_subnets
    (lib : Library) (scope : ConstructPath) (stack_id : string)
    (props : StorageTierDocDBProps.t) :
  StorageTierDocDB lib scope stack_id props ≠ Raise IndexError ∧
  ∀ self,
    StorageTierDocDB lib scope stack_id props = Ok self →
    ∃ cluster,
      database_clusters self = [cluster] ∧
      mongo_db_instances self = [] ∧
      pem_certificates self = [] ∧
      DatabaseCluster.instance_props cluster =
        {| InstanceProps.vpc := StorageTierDocDBProps.vpc props;
           InstanceProps.vpc_subnets :=
             Some {| SubnetSelection.subnet_type := Some PRIVATE;
                     SubnetSelection.availability_zones := None |};
           InstanceProps.instance_type :=
             StorageTierDocDBProps.database_instance_type props |}.
Proof.
  split.
  - intros Hraise. by apply StorageTierDocDB_raises in Hraise.
  - intros self. returned_stack. eexists. by read_stack.
Qed.

Lemma docdb_instances_in_private_subnets_witness :
  ∃ cluster,
    StorageTierDocDB sample_library ["App"] "StorageTier" sample_docdb_props
      = Ok sample_docdb_stack ∧
    database_clusters sample_docdb_stack = [cluster] ∧
    InstanceProps.vpc_subnets (DatabaseCluster.instance_props cluster) =
      Some {| SubnetSelection.subnet_type := Some PRIVATE;
              SubnetSelection.availability_zones := None |}.
Proof.
  destruct (docdb_instances_in_private_subnets sample_library ["App"]
              "StorageTier" sample_docdb_props) as (_ & Hreturned).
  destruct (Hreturned sample_docdb_stack sample_docdb_returned)
    as (cluster & Hclusters & _ & _ & Hprops).
  exists cluster.
  refine (conj sample_docdb_returned (conj Hclusters _)).
  by rewrite Hprops.
Defined.

(** X7. [StorageTierMongoDB] decides nothing about the licence, the key pair
    or the size of the instance: the instance is declared with the SSPL
    acceptance of the props as it is (accepted or rejected), with the key
    pair name of the props (also when there is none) and with the instance
    type of the props; only the MongoDB version is fixed, to 3.6. *)
Theorem mongodb_forwards_props
    (lib : Library) (scope : ConstructPath) (stack_id : string)
    (props : StorageTierMongoDBProps.t) (self : Stack.t) :
  StorageTierMongoDB lib scope stack_id props = Ok self →
  ∃ instance,
    mongo_db_instances self = [instance] ∧
    database_clusters self = [] ∧
    MongoDbApplicationProps.user_sspl_acceptance
      (MongoDbInstance.mongo_db instance)
      = StorageTierMongoDBProps.accept_sspl_license props ∧
    MongoDbInstance.key_name instance
      = StorageTierMongoDBProps.key_pair_name props ∧
    MongoDbInstance.instance_type instance
      = Some (StorageTierMongoDBProps.database_instance_type props) ∧
    MongoDbApplicationProps.version (MongoDbInstance.mongo_db instance)
      = COMMUNITY_3_6.
Proof.
  returned_stack. eexists. by read_stack.
Qed.

Lemma mongodb_forwards_props_witness :
  ∃ instance,
    StorageTierMongoDB sample_library ["App"] "StorageTier"
      sample_mongodb_props = Ok sample_mongodb_stack ∧
    mongo_db_instances sample_mongodb_stack = [instance] ∧
    MongoDbApplicationProps.user_sspl_acceptance
      (MongoDbInstance.mongo_db instance) = USER_ACCEPTS_SSPL ∧
    MongoDbInstance.key_name instance = None.
Proof.
  pose proof sample_mongodb_returned as Hreturned.
  destruct (mongodb_forwards_props sample_library ["App"] "StorageTier"
              sample_mongodb_props sample_mongodb_stack Hreturned)
    as (instance & Hinst & _ & Hsspl & Hkey & _).
  exists instance.
  exact (conj Hreturned (conj Hinst (conj Hsspl Hkey))).
Defined.

(** ** The text [json.dumps] writes *)













Lemma escape_plain_char (c : Ascii.ascii) (s : string) :
  plain c = true → json.escape (String c s) = String c (json.escape s).
Proof.
  destruct c as [[] [] [] [] [] [] [] []]; intros Hplain;
    first [discriminate Hplain | reflexivity].
Qed.

(** X9. A string made of plain characters only (printable ASCII other than
    the double quote and the backslash) is written by [json.dumps] as it
    is, between double quotes. *)
Theorem dumps_plain_string (s : string) :
  all_chars plain s = true →
  json.dumps (json.Str s) = quoted s.
Proof.
  intros Hs. cbn [json.dumps]. unfold json.encode_str, quoted. f_equal.
  f_equal. induction s as [|c s IH]; [done|].
  cbn [all_chars] in Hs. apply andb_true_iff in Hs as [Hc Hs].
  by rewrite escape_plain_char, IH.
Qed.

Lemma dumps_plain_string_witness :
  all_chars plain "readWriteAnyDatabase" = true ∧
  json.dumps (json.Str "readWriteAnyDatabase") = quoted "readWriteAnyDatabase".
Proof.
  split; [reflexivity|].
  apply (dumps_plain_string "readWriteAnyDatabase"). reflexivity.
Defined.

(** ** The handles and the stack *)

(** X10. The two handles a returned stack exposes point into the stack
    itself: the file system [self.file_system] mounts and the database
    [self.database] wraps, when there is one, are constructs the stack
    declares; there are two data stores in a variant and one in the base
    class. *)
Theorem data_stores_declared_by_stack
    (lib : Library) (scope : ConstructPath) (stack_id : string)
    (d : Deployment) (self : Stack.t) :
  deploy lib scope stack_id d = Ok self →
  data_stores self ⊆ Stack.children self ∧
  List.length (data_stores self) =
    match d with
    | DeployStorageTier _ => 1
    | DeployStorageTierDocDB _ | DeployStorageTierMongoDB _ => 2
    end.
Proof.
  deployment_returned d; read_stack; (split; [|reflexivity]);
    intros c Hc; rewrite ?elem_of_cons, elem_of_nil in Hc;
    rewrite !elem_of_cons; destruct_or!; subst; tauto.
Qed.

Lemma data_stores_declared_by_stack_witness :
  deploy sample_library ["App"] "StorageTier"
    (DeployStorageTierMongoDB sample_mongodb_props)
    = Ok sample_mongodb_stack ∧
  data_stores sample_mongodb_stack ⊆ Stack.children sample_mongodb_stack ∧
  List.length (data_stores sample_mongodb_stack) = 2.
Proof.
  pose proof sample_mongodb_returned as Hreturned.
  exact (conj Hreturned
           (data_stores_declared_by_stack sample_library ["App"]
              "StorageTier" (DeployStorageTierMongoDB sample_mongodb_props)
              sample_mongodb_stack Hreturned)).
Defined.
